(** * nova.scheduler.least_cost: the weighted-sum host ranking

    A shallow embedding of [nova/scheduler/least_cost.py] and the
    properties its specification states about it.

    Numbers.  The cost functions return Python numbers and the source
    turns them into floats before it divides.  The function is embedded
    twice, with the same definitions over two kinds of numbers.

    - [num] is exact arithmetic: a finite value is a rational, and
      [num_add], [num_mul] and [num_div] do not round or overflow; the
      three non-finite float values are kept apart, with the IEEE rules
      Python follows for them.  What is proved over [num] holds of the
      program as far as rounding does not interfere: which exception is
      raised, the order of the hosts' raw costs, the fields of the
      result.  A property that rests on the exact value of a sum, a
      product or a quotient is a property of exact arithmetic only, and
      is stated as such.

    - [Binary64] is the arithmetic of the machine: a number is a
      binary64 float and every operation rounds as Python's does.  The
      properties that rounding breaks are refuted there, on concrete
      inputs.

    Python raises [ZeroDivisionError] on a division by zero instead of
    producing a non-finite value; [num_div] does the same in both.

    Errors.  A Python exception is a value of [exn]; a computation that
    may raise returns a [result].

    Comparisons.  The module is Python 2 code: tuples are compared
    component by component, the first components that differ decide,
    and objects of a class without comparison methods are ordered by
    identity. *)

From Stdlib Require Import QArith Qminmax Lqa ZArith List String Ascii Bool.
From Stdlib Require Import OrderedTypeEx.
From Stdlib Require Import PrimFloat.
From stdpp Require Import gmap strings list fin_maps.

Local Open Scope Q_scope.

(** ** Exceptions and results *)

(** The exceptions the code can raise ([ValueError] from [min] and
    [max] of an empty sequence, [IndexError] from an index out of
    range, [ZeroDivisionError] from [/]), and the two error kinds the
    specification names. *)
Inductive exn : Type :=
| ValueError
| IndexError
| ZeroDivisionError
| InvalidInput
| ComputationError.

Inductive result (A : Type) : Type :=
| Ok (a : A)
| Raise (e : exn).

Arguments Ok {A} a.
Arguments Raise {A} e.

Definition bind {A B : Type} (r : result A) (k : A -> result B) : result B :=
  match r with
  | Ok a => k a
  | Raise e => Raise e
  end.

Notation "'do' x <- r ; k" := (bind r (fun x => k))
  (at level 10, x name, r at level 100, k at level 200).

(** A list comprehension whose body may raise: the elements are
    evaluated from left to right and the first exception ends it. *)
Fixpoint mapM {A B : Type} (f : A -> result B) (l : list A) : result (list B) :=
  match l with
  | [] => Ok []
  | a :: l' => do b <- f a; do bs <- mapM f l'; Ok (b :: bs)
  end.

(** ** Numbers *)

Inductive num : Type :=
| Fin (q : Q)
| PInf
| NInf
| NaN.

Definition Qltb (a b : Q) : bool := negb (Qle_bool b a).

Definition inf_of_sign (positive : bool) : num :=
  if positive then PInf else NInf.

(** [a + b] in exact arithmetic: the sum of two finite values is their
    rational sum, where binary64 rounds it ([Binary64.num_add]). *)
Definition num_add (a b : num) : num :=
  match a, b with
  | NaN, _ | _, NaN => NaN
  | Fin x, Fin y => Fin (x + y)
  | PInf, NInf | NInf, PInf => NaN
  | PInf, _ | _, PInf => PInf
  | NInf, _ | _, NInf => NInf
  end.

(** [- a] *)
Definition num_opp (a : num) : num :=
  match a with
  | Fin x => Fin (- x)
  | PInf => NInf
  | NInf => PInf
  | NaN => NaN
  end.

(** [a - b] *)
Definition num_sub (a b : num) : num := num_add a (num_opp b).

(** The sign of a number that is neither zero nor NaN. *)
Definition num_sign (a : num) : option bool :=
  match a with
  | Fin x => if Qeq_bool x 0 then None else Some (Qltb 0 x)
  | PInf => Some true
  | NInf => Some false
  | NaN => None
  end.

(** [a * b] in exact arithmetic: the product of two finite values is
    their rational product, where binary64 rounds it
    ([Binary64.num_mul]). *)
Definition num_mul (a b : num) : num :=
  match a, b with
  | Fin x, Fin y => Fin (x * y)
  | NaN, _ | _, NaN => NaN
  | _, _ =>
      match num_sign a, num_sign b with
      | Some sa, Some sb => inf_of_sign (Bool.eqb sa sb)
      | _, _ => NaN
      end
  end.

(** [a / b] on floats: Python tests the divisor against zero first and
    raises; the other cases are the IEEE ones.  In exact arithmetic:
    the quotient of two finite values is their rational quotient, where
    binary64 rounds it ([Binary64.num_div]). *)
Definition num_div (a b : num) : result num :=
  match b with
  | Fin y =>
      if Qeq_bool y 0 then Raise ZeroDivisionError
      else match a with
           | Fin x => Ok (Fin (x / y))
           | NaN => Ok NaN
           | _ => Ok (num_mul a (Fin y))
           end
  | NaN => Ok NaN
  | PInf | NInf =>
      match a with
      | Fin _ => Ok (Fin 0)
      | _ => Ok NaN
      end
  end.

(** [a < b]; every comparison with NaN is false. *)
Definition num_ltb (a b : num) : bool :=
  match a, b with
  | NaN, _ | _, NaN => false
  | Fin x, Fin y => Qltb x y
  | NInf, NInf => false
  | NInf, _ => true
  | _, NInf => false
  | PInf, _ => false
  | _, PInf => true
  end.

(** [a == b] *)
Definition num_eqb (a b : num) : bool :=
  match a, b with
  | Fin x, Fin y => Qeq_bool x y
  | PInf, PInf | NInf, NInf => true
  | _, _ => false
  end.

(** [float(a)]: the value is unchanged. *)
Definition float (a : num) : num := a.

Definition is_finite (a : num) : bool :=
  match a with
  | Fin _ => true
  | _ => false
  end.

(** Equality of numbers as values: rationals up to [==]. *)
Definition num_eq (a b : num) : Prop :=
  match a, b with
  | Fin x, Fin y => x == y
  | PInf, PInf | NInf, NInf | NaN, NaN => True
  | _, _ => False
  end.

(** ** Python values held by a [WeightedHost] and its dict *)

Inductive pyval : Type :=
| PyNone
| PyStr (s : string)
| PyNum (n : num).

(** Truth value testing, as [if x:] does it. *)
Definition truthy (v : pyval) : bool :=
  match v with
  | PyNone => false
  | PyStr s => negb (String.eqb s EmptyString)
  | PyNum n => negb (num_eqb n (Fin 0))
  end.

(** ** Hosts *)

(** Modelled from the spec: the class of the [host_info] objects is not
    part of the source file; the cost functions read [free_ram_mb],
    [free_vcpus] and [free_disk_gb] from it.  [obj_id] is the identity
    of the object: the class defines no comparison, so Python 2 takes
    two of them for equal when they are the same object and orders
    them by identity. *)
Record HostInfo : Type := mkHostInfo {
  obj_id : Z;
  free_ram_mb : num;
  free_vcpus : num;
  free_disk_gb : num
}.

Definition hostinfo_eqb (a b : HostInfo) : bool := (obj_id a =? obj_id b)%Z.
Definition hostinfo_ltb (a b : HostInfo) : bool := (obj_id a <? obj_id b)%Z.

(** [options is an arbitrary dict of values.] *)
Abbreviation Options := (gmap string pyval).

Record WeightedHost : Type := mkWeightedHost {
  weight : num;
  blob : pyval;
  host : pyval;
  zone : pyval;
  hostinfo : option HostInfo
}.

(** [WeightedHost.__init__(self, weight, host=None, blob=None, zone=None,
    hostinfo=None)] with the keyword arguments [weighted_sum] passes. *)
Definition WeightedHost_init (weight : num) (host : string) (hostinfo : HostInfo)
  : WeightedHost :=
  {| weight := weight; blob := PyNone; host := PyStr host; zone := PyNone;
     hostinfo := Some hostinfo |}.

(** [WeightedHost.to_dict] *)
Definition to_dict (self : WeightedHost) : gmap string pyval :=
  let x : gmap string pyval := {[ "weight"%string := PyNum (weight self) ]} in
  let x := if truthy (blob self) then <[ "blob"%string := blob self ]> x else x in
  let x := if truthy (host self) then <[ "host"%string := host self ]> x else x in
  let x := if truthy (zone self) then <[ "zone"%string := zone self ]> x else x in
  x.

(** ** Cost functions *)

Definition cost_fn : Type := HostInfo -> Options -> num.

Definition noop_cost_fn : cost_fn := fun host_info options => Fin 1.

Definition compute_fill_first_cost_fn : cost_fn :=
  fun host_info options => free_ram_mb host_info.

Definition compute_even_fill_vcpus_cost_fn : cost_fn :=
  fun host_info options => num_mul (Fin (-1)) (free_vcpus host_info).

Definition compute_even_fill_ram_cost_fn : cost_fn :=
  fun host_info options => num_mul (Fin (-1)) (free_ram_mb host_info).

Definition compute_even_fill_disk_cost_fn : cost_fn :=
  fun host_info options => num_mul (Fin (-1)) (free_disk_gb host_info).

(** ** [weighted_sum] *)

(** [min(row)]: the first of the smallest items; [ValueError] on an
    empty sequence. *)
Definition py_min (row : list num) : result num :=
  match row with
  | [] => Raise ValueError
  | x :: xs => Ok (fold_left (fun best item => if num_ltb item best then item else best) xs x)
  end.

(** [max(row)]: the first of the largest items. *)
Definition py_max (row : list num) : result num :=
  match row with
  | [] => Raise ValueError
  | x :: xs => Ok (fold_left (fun best item => if num_ltb best item then item else best) xs x)
  end.

(** The row of raw costs of one function,
    [[fn(host_info, options) for hostname, host_info in host_list]]. *)
Definition row_of (fn : cost_fn) (host_list : list (string * HostInfo))
    (options : Options) : list num :=
  map (fun h : string * HostInfo => fn (snd h) options) host_list.

(** The grid of function results: one row per function, one entry per
    host. *)
Definition build_scores (weighted_fns : list (num * cost_fn))
    (host_list : list (string * HostInfo)) (options : Options) : list (list num) :=
  map (fun wf : num * cost_fn => row_of (snd wf) host_list options) weighted_fns.

(** [zip] of four lists: as long as the shortest. *)
Fixpoint zip4 {A B C D : Type} (la : list A) (lb : list B) (lc : list C) (ld : list D)
  : list (A * B * C * D) :=
  match la, lb, lc, ld with
  | a :: la', b :: lb', c :: lc', d :: ld' => (a, b, c, d) :: zip4 la' lb' lc' ld'
  | _, _, _, _ => []
  end.

(** One entry of the adjusted grid:
    [weight * float(score - score_min) / (score_max - score_min)]. *)
Definition adjust (weight score_min score_max score : num) : result num :=
  num_div (num_mul weight (float (num_sub score score_min)))
          (num_sub score_max score_min).

Definition adjust_row (weight score_min score_max : num) (row : list num)
  : result (list num) :=
  mapM (adjust weight score_min score_max) row.

(** The inner loop [for idx, col in enumerate(row): final_scores[idx] += col],
    from index [idx] on. *)
Fixpoint add_row (final_scores : list num) (idx : nat) (row : list num)
  : result (list num) :=
  match row with
  | [] => Ok final_scores
  | col :: row' =>
      match final_scores !! idx with
      | None => Raise IndexError
      | Some x => add_row (<[idx := num_add x col]> final_scores) (S idx) row'
      end
  end.

(** The outer loop [for row in adjusted_scores]. *)
Fixpoint sum_columns (final_scores : list num) (adjusted_scores : list (list num))
  : result (list num) :=
  match adjusted_scores with
  | [] => Ok final_scores
  | row :: rows => do final_scores' <- add_row final_scores 0 row;
                   sum_columns final_scores' rows
  end.

(** The body of the loop over
    [zip(score_mins, score_maxes, weighted_fns, scores)]. *)
Definition adjust_tuple (t : num * num * (num * cost_fn) * list num)
  : result (list num) :=
  match t with
  | (score_min, score_max, (weight, fn), row) =>
      adjust_row weight score_min score_max row
  end.

(** The adjusted grid: the part of [weighted_sum] up to the loop that
    fills [adjusted_scores]. *)
Definition adjusted_scores (weighted_fns : list (num * cost_fn))
    (host_list : list (string * HostInfo)) (options : Options)
  : result (list (list num)) :=
  let scores := build_scores weighted_fns host_list options in
  do score_mins <- mapM py_min scores;
  do score_maxes <- mapM py_max scores;
  mapM adjust_tuple (zip4 score_mins score_maxes weighted_fns scores).

(** The aggregate score of every host: the part of [weighted_sum] up
    to the column sums. *)
Definition aggregate (weighted_fns : list (num * cost_fn))
    (host_list : list (string * HostInfo)) (options : Options) : result (list num) :=
  do adjusted_scores <- adjusted_scores weighted_fns host_list options;
  sum_columns (repeat (Fin 0) (length host_list)) adjusted_scores.

(** [[(final_scores[idx], host_tuple) for idx, host_tuple in
    enumerate(host_list)]], from index [idx] on. *)
Fixpoint superimpose (final_scores : list num) (idx : nat)
    (host_list : list (string * HostInfo)) : result (list (num * (string * HostInfo))) :=
  match host_list with
  | [] => Ok []
  | host_tuple :: host_list' =>
      match final_scores !! idx with
      | None => Raise IndexError
      | Some s => do rest <- superimpose final_scores (S idx) host_list';
                  Ok ((s, host_tuple) :: rest)
      end
  end.

(** [a < b] on the tuples [(score, (hostname, hostinfo))]: the first
    components that differ decide. *)
Definition host_tuple_ltb (a b : string * HostInfo) : bool :=
  if negb (String.eqb (fst a) (fst b)) then String.ltb (fst a) (fst b)
  else if negb (hostinfo_eqb (snd a) (snd b)) then hostinfo_ltb (snd a) (snd b)
  else false.

Definition host_tuple_eqb (a b : string * HostInfo) : bool :=
  String.eqb (fst a) (fst b) && hostinfo_eqb (snd a) (snd b).

Definition scored_ltb (a b : num * (string * HostInfo)) : bool :=
  if negb (num_eqb (fst a) (fst b)) then num_ltb (fst a) (fst b)
  else if negb (host_tuple_eqb (snd a) (snd b)) then host_tuple_ltb (snd a) (snd b)
  else false.

(** [sorted]: a stable sort that only asks [<], as Python's does.  It
    is written as the insertion sort Python's sort is on short lists;
    every stable sort gives the same list whenever [<] orders the items
    consistently. *)
Fixpoint insert_sorted {A : Type} (ltb : A -> A -> bool) (x : A) (l : list A) : list A :=
  match l with
  | [] => [x]
  | y :: l' => if ltb x y then x :: y :: l' else y :: insert_sorted ltb x l'
  end.

Definition sorted {A : Type} (ltb : A -> A -> bool) (l : list A) : list A :=
  fold_left (fun acc x => insert_sorted ltb x acc) l [].

Definition weighted_sum (weighted_fns : list (num * cost_fn))
    (host_list : list (string * HostInfo)) (options : Options) : result WeightedHost :=
  do final_scores <- aggregate weighted_fns host_list options;
  do final_scores <- superimpose final_scores 0 host_list;
  let final_scores := sorted scored_ltb final_scores in
  match final_scores with
  | [] => Raise IndexError
  | (weight, (host, hostinfo)) :: _ => Ok (WeightedHost_init weight host hostinfo)
  end.

(** ** [weighted_sum] in binary64 arithmetic *)

(** The same function with the arithmetic of the machine: a number is
    a binary64 float and every operation rounds as Python's does.  The
    definitions follow those above one by one; only the numbers
    differ.  A raw cost that is a Python int is taken as the float it
    converts to, which is exact for every integer below 2^53 in
    magnitude, as are the differences of such integers. *)
Module Binary64.

Definition num : Set := PrimFloat.float.

(** [a + b] *)
Definition num_add (a b : num) : num := PrimFloat.add a b.

(** [a - b] *)
Definition num_sub (a b : num) : num := PrimFloat.sub a b.

(** [a * b] *)
Definition num_mul (a b : num) : num := PrimFloat.mul a b.

(** [a / b]: Python tests the divisor against zero first and raises. *)
Definition num_div (a b : num) : result num :=
  if PrimFloat.eqb b 0%float then Raise ZeroDivisionError
  else Ok (PrimFloat.div a b).

(** [a < b] *)
Definition num_ltb (a b : num) : bool := PrimFloat.ltb a b.

(** [a == b] *)
Definition num_eqb (a b : num) : bool := PrimFloat.eqb a b.

(** [float(a)] *)
Definition float (a : num) : num := a.

Record HostInfo : Type := mkHostInfo {
  obj_id : Z;
  free_ram_mb : num;
  free_vcpus : num;
  free_disk_gb : num
}.

Definition hostinfo_eqb (a b : HostInfo) : bool := (obj_id a =? obj_id b)%Z.
Definition hostinfo_ltb (a b : HostInfo) : bool := (obj_id a <? obj_id b)%Z.

Record WeightedHost : Type := mkWeightedHost {
  weight : num;
  blob : pyval;
  host : pyval;
  zone : pyval;
  hostinfo : option HostInfo
}.

Definition WeightedHost_init (weight : num) (host : string) (hostinfo : HostInfo)
  : WeightedHost :=
  {| weight := weight; blob := PyNone; host := PyStr host; zone := PyNone;
     hostinfo := Some hostinfo |}.

Definition cost_fn : Type := HostInfo -> Options -> num.

Definition noop_cost_fn : cost_fn := fun host_info options => 1%float.

Definition compute_fill_first_cost_fn : cost_fn :=
  fun host_info options => free_ram_mb host_info.

Definition compute_even_fill_vcpus_cost_fn : cost_fn :=
  fun host_info options => num_mul (-1)%float (free_vcpus host_info).

Definition compute_even_fill_ram_cost_fn : cost_fn :=
  fun host_info options => num_mul (-1)%float (free_ram_mb host_info).

Definition compute_even_fill_disk_cost_fn : cost_fn :=
  fun host_info options => num_mul (-1)%float (free_disk_gb host_info).

Definition py_min (row : list num) : result num :=
  match row with
  | [] => Raise ValueError
  | x :: xs => Ok (fold_left (fun best item => if num_ltb item best then item else best) xs x)
  end.

Definition py_max (row : list num) : result num :=
  match row with
  | [] => Raise ValueError
  | x :: xs => Ok (fold_left (fun best item => if num_ltb best item then item else best) xs x)
  end.

Definition row_of (fn : cost_fn) (host_list : list (string * HostInfo))
    (options : Options) : list num :=
  map (fun h : string * HostInfo => fn (snd h) options) host_list.

Definition build_scores (weighted_fns : list (num * cost_fn))
    (host_list : list (string * HostInfo)) (options : Options) : list (list num) :=
  map (fun wf : num * cost_fn => row_of (snd wf) host_list options) weighted_fns.

(** [weight * float(score - score_min) / (score_max - score_min)] *)
Definition adjust (weight score_min score_max score : num) : result num :=
  num_div (num_mul weight (float (num_sub score score_min)))
          (num_sub score_max score_min).

Definition adjust_row (weight score_min score_max : num) (row : list num)
  : result (list num) :=
  mapM (adjust weight score_min score_max) row.

Fixpoint add_row (final_scores : list num) (idx : nat) (row : list num)
  : result (list num) :=
  match row with
  | [] => Ok final_scores
  | col :: row' =>
      match final_scores !! idx with
      | None => Raise IndexError
      | Some x => add_row (<[idx := num_add x col]> final_scores) (S idx) row'
      end
  end.

Fixpoint sum_columns (final_scores : list num) (adjusted_scores : list (list num))
  : result (list num) :=
  match adjusted_scores with
  | [] => Ok final_scores
  | row :: rows => do final_scores' <- add_row final_scores 0 row;
                   sum_columns final_scores' rows
  end.

Definition adjust_tuple (t : num * num * (num * cost_fn) * list num)
  : result (list num) :=
  match t with
  | (score_min, score_max, (weight, fn), row) =>
      adjust_row weight score_min score_max row
  end.

Definition adjusted_scores (weighted_fns : list (num * cost_fn))
    (host_list : list (string * HostInfo)) (options : Options)
  : result (list (list num)) :=
  let scores := build_scores weighted_fns host_list options in
  do score_mins <- mapM py_min scores;
  do score_maxes <- mapM py_max scores;
  mapM adjust_tuple (zip4 score_mins score_maxes weighted_fns scores).

Definition aggregate (weighted_fns : list (num * cost_fn))
    (host_list : list (string * HostInfo)) (options : Options) : result (list num) :=
  do adjusted_scores <- adjusted_scores weighted_fns host_list options;
  sum_columns (repeat 0%float (length host_list)) adjusted_scores.

Fixpoint superimpose (final_scores : list num) (idx : nat)
    (host_list : list (string * HostInfo)) : result (list (num * (string * HostInfo))) :=
  match host_list with
  | [] => Ok []
  | host_tuple :: host_list' =>
      match final_scores !! idx with
      | None => Raise IndexError
      | Some s => do rest <- superimpose final_scores (S idx) host_list';
                  Ok ((s, host_tuple) :: rest)
      end
  end.

Definition host_tuple_ltb (a b : string * HostInfo) : bool :=
  if negb (String.eqb (fst a) (fst b)) then String.ltb (fst a) (fst b)
  else if negb (hostinfo_eqb (snd a) (snd b)) then hostinfo_ltb (snd a) (snd b)
  else false.

Definition host_tuple_eqb (a b : string * HostInfo) : bool :=
  String.eqb (fst a) (fst b) && hostinfo_eqb (snd a) (snd b).

Definition scored_ltb (a b : num * (string * HostInfo)) : bool :=
  if negb (num_eqb (fst a) (fst b)) then num_ltb (fst a) (fst b)
  else if negb (host_tuple_eqb (snd a) (snd b)) then host_tuple_ltb (snd a) (snd b)
  else false.

Definition weighted_sum (weighted_fns : list (num * cost_fn))
    (host_list : list (string * HostInfo)) (options : Options) : result WeightedHost :=
  do final_scores <- aggregate weighted_fns host_list options;
  do final_scores <- superimpose final_scores 0 host_list;
  let final_scores := sorted scored_ltb final_scores in
  match final_scores with
  | [] => Raise IndexError
  | (weight, (host, hostinfo)) :: _ => Ok (WeightedHost_init weight host hostinfo)
  end.

(** The sum of the weights of a function list, and every weight
    multiplied by [c], as for the exact numbers. *)
Definition weight_total (weighted_fns : list (num * cost_fn)) : num :=
  fold_right (fun (wf : num * cost_fn) acc => num_add (fst wf) acc) 0%float weighted_fns.

Definition scale_weights (c : num) (weighted_fns : list (num * cost_fn))
  : list (num * cost_fn) :=
  map (fun wf : num * cost_fn => (num_mul (fst wf) c, snd wf)) weighted_fns.

(** A host with the given resources. *)
Definition fake_host (id : Z) (ram vcpus disk : num) : HostInfo :=
  mkHostInfo id ram vcpus disk.

End Binary64.

(** ** Vocabulary of the properties *)

(** The rational a finite number stands for. *)
Definition qv (a : num) : Q :=
  match a with
  | Fin q => q
  | _ => 0
  end.


(** A row in which every host has the same raw cost. *)
Definition tied (row : list num) : Prop :=
  forall x y, In x row -> In y row -> num_eq x y.

(** The sum of the weights of a function list. *)
Definition weight_total (weighted_fns : list (num * cost_fn)) : Q :=
  fold_right (fun (wf : num * cost_fn) acc => qv (fst wf) + acc) 0 weighted_fns.

(** Every weight multiplied by [c]. *)
Definition scale_weights (c : Q) (weighted_fns : list (num * cost_fn))
  : list (num * cost_fn) :=
  map (fun wf : num * cost_fn => (num_mul (fst wf) (Fin c), snd wf)) weighted_fns.


(** The first of the least items of [x :: l] for [ltb]. *)
Definition first_min {A : Type} (ltb : A -> A -> bool) (x : A) (l : list A) : A :=
  fold_left (fun best y => if ltb y best then y else best) l x.

(** One row of the adjusted grid, from the function and its weight. *)
Definition normalize_fn (host_list : list (string * HostInfo)) (options : Options)
    (wf : num * cost_fn) : result (list num) :=
  let row := row_of (snd wf) host_list options in
  do score_min <- py_min row;
  do score_max <- py_max row;
  adjust_row (fst wf) score_min score_max row.



(** The function without its intermediate lists: the winner is the
    first of the least [(score, host)] pairs. *)
Definition select (scored : list (num * (string * HostInfo))) : result WeightedHost :=
  match scored with
  | [] => Raise IndexError
  | x :: l =>
      match first_min scored_ltb x l with
      | (weight, (host, hostinfo)) => Ok (WeightedHost_init weight host hostinfo)
      end
  end.








(** Hosts and function lists of the examples. *)
Definition fake_host (id : Z) (ram vcpus disk : Z) : HostInfo :=
  mkHostInfo id (Fin (inject_Z ram)) (Fin (inject_Z vcpus)) (Fin (inject_Z disk)).

Definition four_hosts : list (string * HostInfo) :=
  [("host1"%string, fake_host 1 512 1 512);
   ("host2"%string, fake_host 2 1024 2 1024);
   ("host3"%string, fake_host 3 3072 4 3072);
   ("host4"%string, fake_host 4 8192 8 8192)].

(** Two cost functions outside the contract: [float('inf')] and
    [float('nan')] for every host. *)
Definition infinite_cost_fn : cost_fn := fun host_info options => PInf.
Definition nan_cost_fn : cost_fn := fun host_info options => NaN.

(** The two functions of the test module. *)
Definition offset : cost_fn := fun hostinfo options => num_add (free_ram_mb hostinfo) (Fin 10000).
Definition scale : cost_fn := fun hostinfo options => num_mul (free_ram_mb hostinfo) (Fin 2).

(** * Properties *)

(** ** Rational comparisons *)

Lemma Qltb_lt (a b : Q) : Qltb a b = true <-> a < b.
Proof.
  unfold Qltb. rewrite negb_true_iff.
  split; intros H.
  - apply Qnot_le_lt. intros Hle. apply Qle_bool_iff in Hle. congruence.
  - destruct (Qle_bool b a) eqn:E; [|reflexivity].
    apply Qle_bool_iff in E. exfalso. apply (Qlt_not_le _ _ H E).
Qed.

Lemma Qltb_ge (a b : Q) : Qltb a b = false <-> b <= a.
Proof.
  unfold Qltb. rewrite negb_false_iff. apply Qle_bool_iff.
Qed.


(** ** Results *)

Lemma bind_Ok {A B : Type} (r : result A) (k : A -> result B) (b : B) :
  bind r k = Ok b <-> exists a, r = Ok a /\ k a = Ok b.
Proof.
  destruct r as [a|e]; simpl; split.
  - intros H. exists a. auto.
  - intros (a' & Ha & Hk). congruence.
  - discriminate.
  - intros (a' & Ha & _). discriminate.
Qed.

Lemma mapM_Ok {A B : Type} (f : A -> result B) (l : list A) (bs : list B) :
  mapM f l = Ok bs <-> Forall2 (fun a b => f a = Ok b) l bs.
Proof.
  revert bs. induction l as [|a l IH]; intros bs; simpl.
  - split.
    + intros H. injection H as <-. constructor.
    + intros H. inversion H. reflexivity.
  - split.
    + intros H. apply bind_Ok in H as (b & Hb & H).
      apply bind_Ok in H as (bs' & Hbs & H). injection H as <-.
      constructor; [assumption|]. apply IH. assumption.
    + intros H. inversion H as [|? b ? bs' Hb Hbs]; subst.
      rewrite Hb. simpl. apply IH in Hbs. rewrite Hbs. reflexivity.
Qed.

Lemma mapM_Raise {A B : Type} (f : A -> result B) (l : list A) (e : exn) :
  mapM f l = Raise e -> exists a, In a l /\ f a = Raise e.
Proof.
  induction l as [|a l IH]; simpl; [discriminate|].
  destruct (f a) as [b|e'] eqn:Hfa; simpl.
  - destruct (mapM f l) as [bs|e'']; simpl; [discriminate|].
    intros H. injection H as ->. destruct IH as (a' & Hin & Ha'); [reflexivity|].
    exists a'. auto.
  - intros H. injection H as ->. exists a. auto.
Qed.

(** ** Finite numbers *)

Lemma num_eq_refl (a : num) : num_eq a a.
Proof. destruct a; simpl; auto. reflexivity. Qed.

Lemma num_eq_sym (a b : num) : num_eq a b -> num_eq b a.
Proof. destruct a, b; simpl; auto. intros H. symmetry. assumption. Qed.


(** ** [min] and [max] *)

Lemma py_min_fold (row : list num) (x : num) :
  py_min (x :: row) = Ok (first_min num_ltb x row).
Proof. reflexivity. Qed.

Lemma first_min_In {A : Type} (ltb : A -> A -> bool) (l : list A) (x : A) :
  In (first_min ltb x l) (x :: l).
Proof.
  unfold first_min. revert x. induction l as [|y l IH]; intros x; simpl.
  - left. reflexivity.
  - destruct (IH (if ltb y x then y else x)) as [H|H].
    + destruct (ltb y x); rewrite <- H; auto.
    + right. right. assumption.
Qed.

Lemma py_min_spec (row : list num) :
  row <> [] -> Forall (fun a => is_finite a = true) row ->
  exists m, py_min row = Ok (Fin m) /\ In (Fin m) row /\
            forall y, In y row -> m <= qv y.
Proof.
  destruct row as [|x row]; [congruence|]. intros _ Hfin.
  rewrite py_min_fold. unfold first_min.
  revert x Hfin. induction row as [|y row IH]; intros x Hfin; simpl.
  - inversion Hfin as [|? ? Hx _]; subst.
    destruct x as [q| | |]; try discriminate Hx. exists q. simpl.
    split; [reflexivity|]. split; [auto|].
    intros y [<-|[]]. simpl. apply Qle_refl.
  - inversion Hfin as [|? ? Hx Hrest]; subst.
    inversion Hrest as [|? ? Hy Hrow]; subst.
    destruct x as [q| | |]; try discriminate Hx.
    destruct y as [q0| | |]; try discriminate Hy. simpl.
    destruct (Qltb q0 q) eqn:E.
    + apply Qltb_lt in E.
      destruct (IH (Fin q0)) as (m & Hm & Hin & Hle).
      { constructor; [reflexivity|assumption]. }
      exists m. split; [assumption|]. split.
      * destruct Hin as [Hin|Hin]; [right; left; assumption|right; right; assumption].
      * intros z [<-|[<-|Hz]].
        -- simpl. apply Qle_trans with q0; [|apply Qlt_le_weak; assumption].
           apply (Hle (Fin q0)). left. reflexivity.
        -- apply (Hle (Fin q0)). left. reflexivity.
        -- apply Hle. right. assumption.
    + apply Qltb_ge in E.
      destruct (IH (Fin q)) as (m & Hm & Hin & Hle).
      { constructor; [reflexivity|assumption]. }
      exists m. split; [assumption|]. split.
      * destruct Hin as [Hin|Hin]; [left; assumption|right; right; assumption].
      * intros z [<-|[<-|Hz]].
        -- apply (Hle (Fin q)). left. reflexivity.
        -- simpl. apply Qle_trans with q; [|assumption].
           apply (Hle (Fin q)). left. reflexivity.
        -- apply Hle. right. assumption.
Qed.

Lemma py_max_spec (row : list num) :
  row <> [] -> Forall (fun a => is_finite a = true) row ->
  exists m, py_max row = Ok (Fin m) /\ In (Fin m) row /\
            forall y, In y row -> qv y <= m.
Proof.
  destruct row as [|x row]; [congruence|]. intros _ Hfin.
  unfold py_max.
  revert x Hfin. induction row as [|y row IH]; intros x Hfin; simpl.
  - inversion Hfin as [|? ? Hx _]; subst.
    destruct x as [q| | |]; try discriminate Hx. exists q. simpl.
    split; [reflexivity|]. split; [auto|].
    intros y [<-|[]]. simpl. apply Qle_refl.
  - inversion Hfin as [|? ? Hx Hrest]; subst.
    inversion Hrest as [|? ? Hy Hrow]; subst.
    destruct x as [q| | |]; try discriminate Hx.
    destruct y as [q0| | |]; try discriminate Hy. simpl.
    destruct (Qltb q q0) eqn:E.
    + apply Qltb_lt in E.
      destruct (IH (Fin q0)) as (m & Hm & Hin & Hle).
      { constructor; [reflexivity|assumption]. }
      exists m. split; [assumption|]. split.
      * destruct Hin as [Hin|Hin]; [right; left; assumption|right; right; assumption].
      * intros z [<-|[<-|Hz]].
        -- simpl. apply Qle_trans with q0; [apply Qlt_le_weak; assumption|].
           apply (Hle (Fin q0)). left. reflexivity.
        -- apply (Hle (Fin q0)). left. reflexivity.
        -- apply Hle. right. assumption.
    + apply Qltb_ge in E.
      destruct (IH (Fin q)) as (m & Hm & Hin & Hle).
      { constructor; [reflexivity|assumption]. }
      exists m. split; [assumption|]. split.
      * destruct Hin as [Hin|Hin]; [left; assumption|right; right; assumption].
      * intros z [<-|[<-|Hz]].
        -- apply (Hle (Fin q)). left. reflexivity.
        -- simpl. apply Qle_trans with q; [assumption|].
           apply (Hle (Fin q)). left. reflexivity.
        -- apply Hle. right. assumption.
Qed.

Lemma py_min_Raise (row : list num) (e : exn) :
  py_min row = Raise e -> e = ValueError /\ row = [].
Proof. destruct row; simpl; intros H; [|discriminate]. injection H as <-. auto. Qed.

Lemma py_max_Raise (row : list num) (e : exn) :
  py_max row = Raise e -> e = ValueError /\ row = [].
Proof. destruct row; simpl; intros H; [|discriminate]. injection H as <-. auto. Qed.

(** ** One entry and one row of the adjusted grid *)


(** A zero divisor raises whatever the numerator is. *)
Lemma adjust_zero_range (w mn mx s : num) (y : Q) :
  num_sub mx mn = Fin y -> y == 0 -> adjust w mn mx s = Raise ZeroDivisionError.
Proof.
  intros Hsub Hy. unfold adjust. rewrite Hsub. simpl.
  apply Qeq_bool_iff in Hy. rewrite Hy. reflexivity.
Qed.

Lemma adjust_Raise (w mn mx s : num) (e : exn) :
  adjust w mn mx s = Raise e -> e = ZeroDivisionError.
Proof.
  unfold adjust, num_div.
  destruct (num_sub mx mn) as [y| | |].
  - destruct (Qeq_bool y 0).
    + intros H. injection H as <-. reflexivity.
    + destruct (num_mul w (float (num_sub s mn))); discriminate.
  - destruct (num_mul w (float (num_sub s mn))); discriminate.
  - destruct (num_mul w (float (num_sub s mn))); discriminate.
  - discriminate.
Qed.

Lemma adjust_row_Raise (w mn mx : num) (row : list num) (e : exn) :
  adjust_row w mn mx row = Raise e -> e = ZeroDivisionError.
Proof.
  intros H. apply mapM_Raise in H as (s & _ & H). eapply adjust_Raise, H.
Qed.

Lemma adjust_row_length (w mn mx : num) (row adj : list num) :
  adjust_row w mn mx row = Ok adj -> length adj = length row.
Proof.
  intros H. apply mapM_Ok in H. symmetry. eapply Forall2_length, H.
Qed.


Lemma adjust_row_tied (w mn mx : num) (y : Q) (row : list num) :
  row <> [] -> num_sub mx mn = Fin y -> y == 0 ->
  adjust_row w mn mx row = Raise ZeroDivisionError.
Proof.
  destruct row as [|s row]; [congruence|]. intros _ Hsub Hy.
  unfold adjust_row. simpl. rewrite (adjust_zero_range _ _ _ _ _ Hsub Hy).
  reflexivity.
Qed.

(** ** The column sums *)

Lemma add_row_app (row : list num) : forall (pre fs : list num),
  length row = length fs ->
  add_row (pre ++ fs) (length pre) row = Ok (pre ++ zip_with num_add fs row).
Proof.
  induction row as [|col row IH]; intros pre fs Hlen.
  - destruct fs; [|discriminate]. reflexivity.
  - destruct fs as [|x fs]; [discriminate|]. simpl in Hlen.
    simpl. rewrite list_lookup_middle by reflexivity.
    replace (<[length pre := num_add x col]> (pre ++ x :: fs))
      with ((pre ++ [num_add x col]) ++ fs).
    + replace (S (length pre)) with (length (pre ++ [num_add x col])).
      * rewrite IH by lia. rewrite <- app_assoc. reflexivity.
      * rewrite length_app. simpl. lia.
    + rewrite <- app_assoc. simpl.
      rewrite <- (Nat.add_0_r (length pre)) at 1.
      rewrite insert_app_r. reflexivity.
Qed.

Lemma add_row_zip (fs row : list num) :
  length row = length fs -> add_row fs 0 row = Ok (zip_with num_add fs row).
Proof. intros H. apply (add_row_app row [] fs H). Qed.

Lemma sum_columns_fold (rows : list (list num)) : forall fs : list num,
  Forall (fun row => length row = length fs) rows ->
  sum_columns fs rows = Ok (fold_left (zip_with num_add) rows fs).
Proof.
  induction rows as [|row rows IH]; intros fs Hlen; simpl; [reflexivity|].
  inversion Hlen as [|? ? Hrow Hrows]; subst.
  rewrite add_row_zip by assumption. simpl. apply IH.
  rewrite length_zip_with_l_eq by (symmetry; assumption). assumption.
Qed.

Lemma fold_zip_length (rows : list (list num)) : forall fs : list num,
  Forall (fun row => length row = length fs) rows ->
  length (fold_left (zip_with num_add) rows fs) = length fs.
Proof.
  induction rows as [|row rows IH]; intros fs Hlen; simpl; [reflexivity|].
  inversion Hlen as [|? ? Hrow Hrows]; subst.
  rewrite IH; rewrite length_zip_with_l_eq by (symmetry; assumption);
    [reflexivity|assumption].
Qed.

(** ** Scores paired with hosts *)

Lemma superimpose_app (host_list : list (string * HostInfo)) :
  forall (pre fs : list num),
  length fs = length host_list ->
  superimpose (pre ++ fs) (length pre) host_list = Ok (zip fs host_list).
Proof.
  induction host_list as [|h host_list IH]; intros pre fs Hlen.
  - destruct fs; [|discriminate]. reflexivity.
  - destruct fs as [|x fs]; [discriminate|]. simpl in Hlen. simpl.
    rewrite list_lookup_middle by reflexivity.
    replace (pre ++ x :: fs) with ((pre ++ [x]) ++ fs)
      by (rewrite <- app_assoc; reflexivity).
    replace (S (length pre)) with (length (pre ++ [x]))
      by (rewrite length_app; simpl; lia).
    rewrite IH by lia. reflexivity.
Qed.

Lemma superimpose_zip (fs : list num) (host_list : list (string * HostInfo)) :
  length fs = length host_list ->
  superimpose fs 0 host_list = Ok (zip fs host_list).
Proof. intros H. apply (superimpose_app host_list [] fs H). Qed.

(** ** The head of a sorted list *)

Lemma sorted_head_fold {A : Type} (ltb : A -> A -> bool) (l : list A) :
  forall (h : A) (t : list A),
  exists t', fold_left (fun acc x => insert_sorted ltb x acc) l (h :: t)
             = first_min ltb h l :: t'.
Proof.
  unfold first_min.
  induction l as [|x l IH]; intros h t; simpl.
  - exists t. reflexivity.
  - destruct (ltb x h); apply IH.
Qed.

Lemma sorted_head {A : Type} (ltb : A -> A -> bool) (x : A) (l : list A) :
  exists t, sorted ltb (x :: l) = first_min ltb x l :: t.
Proof. unfold sorted. simpl. apply sorted_head_fold. Qed.

(** ** The adjusted grid, row by row *)

Lemma build_scores_rows (weighted_fns : list (num * cost_fn))
    (host_list : list (string * HostInfo)) (options : Options) :
  build_scores weighted_fns host_list options =
  map (fun wf => row_of (snd wf) host_list options) weighted_fns.
Proof. reflexivity. Qed.

Lemma row_of_length (fn : cost_fn) (host_list : list (string * HostInfo))
    (options : Options) :
  length (row_of fn host_list options) = length host_list.
Proof. unfold row_of. apply length_map. Qed.

Lemma row_of_nonempty (fn : cost_fn) (host_list : list (string * HostInfo))
    (options : Options) :
  host_list <> [] -> row_of fn host_list options <> [].
Proof. destruct host_list; [congruence|]. discriminate. Qed.

Section Grid.
Variable host_list : list (string * HostInfo).
Variable options : Options.

Let row (wf : num * cost_fn) : list num := row_of (snd wf) host_list options.

(** What [zip] puts together for each function. *)
Lemma zip4_rows (weighted_fns : list (num * cost_fn)) :
  forall mins maxes : list num,
  Forall2 (fun r m => py_min r = Ok m) (map row weighted_fns) mins ->
  Forall2 (fun r m => py_max r = Ok m) (map row weighted_fns) maxes ->
  Forall2 (fun wf t => exists mn mx,
               t = (mn, mx, wf, row wf) /\
               py_min (row wf) = Ok mn /\ py_max (row wf) = Ok mx)
          weighted_fns
          (zip4 mins maxes weighted_fns (map row weighted_fns)).
Proof.
  induction weighted_fns as [|wf fns IH]; intros mins maxes Hmin Hmax.
  - inversion Hmin; subst. constructor.
  - inversion Hmin as [|? mn ? mins' Hmn Hmins]; subst.
    inversion Hmax as [|? mx ? maxes' Hmx Hmaxes]; subst.
    simpl. constructor.
    + exists mn, mx. auto.
    + apply IH; assumption.
Qed.

Lemma adjust_tuple_normalize (wf : num * cost_fn) (mn mx : num) :
  py_min (row wf) = Ok mn -> py_max (row wf) = Ok mx ->
  adjust_tuple (mn, mx, wf, row wf) = normalize_fn host_list options wf.
Proof.
  intros Hmn Hmx. unfold normalize_fn. fold (row wf).
  rewrite Hmn, Hmx. destruct wf as [w fn]. reflexivity.
Qed.

Lemma adjusted_scores_Ok (weighted_fns : list (num * cost_fn))
    (adjs : list (list num)) :
  adjusted_scores weighted_fns host_list options = Ok adjs <->
  Forall2 (fun wf adj => normalize_fn host_list options wf = Ok adj)
          weighted_fns adjs.
Proof.
  unfold adjusted_scores. rewrite build_scores_rows. fold row. split.
  - intros H. apply bind_Ok in H as (mins & Hmins & H).
    apply bind_Ok in H as (maxes & Hmaxes & H).
    apply mapM_Ok in Hmins, Hmaxes, H.
    pose proof (zip4_rows _ _ _ Hmins Hmaxes) as Hz.
    clear Hmins Hmaxes.
    revert adjs H.
    induction Hz as [|wf t fns ts (mn & mx & -> & Hmn & Hmx) Hz IH];
      intros adjs H; inversion H as [|? adj ? adjs' Hadj Hadjs]; subst;
      constructor.
    + rewrite <- (adjust_tuple_normalize wf mn mx) by assumption. assumption.
    + apply IH. assumption.
  - intros H.
    assert (Hmm : exists mins maxes,
               Forall2 (fun r m => py_min r = Ok m) (map row weighted_fns) mins /\
               Forall2 (fun r m => py_max r = Ok m) (map row weighted_fns) maxes).
    { induction H as [|wf adj fns adjs' Hwf _ (mins & maxes & IHmin & IHmax)].
      - exists [], []. split; constructor.
      - unfold normalize_fn in Hwf. fold (row wf) in Hwf.
        apply bind_Ok in Hwf as (mn & Hmn & Hwf).
        apply bind_Ok in Hwf as (mx & Hmx & _).
        exists (mn :: mins), (mx :: maxes). simpl.
        split; constructor; assumption. }
    destruct Hmm as (mins & maxes & Hmins & Hmaxes).
    pose proof (zip4_rows _ _ _ Hmins Hmaxes) as Hz.
    apply mapM_Ok in Hmins, Hmaxes. rewrite Hmins, Hmaxes. simpl.
    apply mapM_Ok.
    clear Hmins Hmaxes. revert adjs H.
    induction Hz as [|wf t fns ts (mn & mx & -> & Hmn & Hmx) Hz IH];
      intros adjs H; inversion H as [|? adj ? adjs' Hadj Hadjs]; subst;
      constructor.
    + change (adjust_tuple (mn, mx, wf, row wf) = Ok adj).
      rewrite (adjust_tuple_normalize wf mn mx) by assumption. assumption.
    + apply IH. assumption.
Qed.

(** The grid raises [ValueError] for an empty host list (and some
    function), [ZeroDivisionError] otherwise, and nothing else. *)
Lemma adjusted_scores_Raise (weighted_fns : list (num * cost_fn)) (e : exn) :
  adjusted_scores weighted_fns host_list options = Raise e ->
  (e = ValueError /\ host_list = [] /\ weighted_fns <> []) \/
  (e = ZeroDivisionError /\ host_list <> []).
Proof.
  unfold adjusted_scores. rewrite build_scores_rows. fold row.
  assert (Hempty : forall wf, row wf = [] -> host_list = []).
  { intros wf. unfold row, row_of. destruct host_list; [reflexivity|discriminate]. }
  destruct (mapM py_min (map row weighted_fns)) as [mins|e1] eqn:Hmins; simpl.
  - destruct (mapM py_max (map row weighted_fns)) as [maxes|e2] eqn:Hmaxes; simpl.
    + intros H. right. apply mapM_Raise in H as (t & Hin & Ht).
      apply mapM_Ok in Hmins, Hmaxes.
      pose proof (zip4_rows _ _ _ Hmins Hmaxes) as Hz.
      apply list_elem_of_In in Hin.
      apply list_elem_of_lookup in Hin as (i & Hi).
      destruct (Forall2_lookup_r _ _ _ _ _ Hz Hi) as (wf & _ & mn & mx & -> & Hmn & _).
      destruct wf as [w fn].
      split; [eapply adjust_row_Raise, Ht|].
      intros ->. discriminate Hmn.
    + intros H. injection H as <-. left.
      apply mapM_Raise in Hmaxes as (r & Hin & Hr).
      apply py_max_Raise in Hr as (-> & ->).
      apply in_map_iff in Hin as (wf & Hwf & Hin).
      split; [reflexivity|]. split; [eapply Hempty, Hwf|].
      intros ->. destruct Hin.
  - intros H. injection H as <-. left.
    apply mapM_Raise in Hmins as (r & Hin & Hr).
    apply py_min_Raise in Hr as (-> & ->).
    apply in_map_iff in Hin as (wf & Hwf & Hin).
    split; [reflexivity|]. split; [eapply Hempty, Hwf|].
    intros ->. destruct Hin.
Qed.
End Grid.

(** ** The aggregate scores and the winner *)

Lemma normalize_fn_length (host_list : list (string * HostInfo)) (options : Options)
    (wf : num * cost_fn) (adj : list num) :
  normalize_fn host_list options wf = Ok adj -> length adj = length host_list.
Proof.
  unfold normalize_fn. intros H.
  apply bind_Ok in H as (mn & _ & H). apply bind_Ok in H as (mx & _ & H).
  apply adjust_row_length in H. rewrite H. apply row_of_length.
Qed.

Lemma normalized_lengths (host_list : list (string * HostInfo)) (options : Options)
    (weighted_fns : list (num * cost_fn)) (adjs : list (list num)) :
  Forall2 (fun wf adj => normalize_fn host_list options wf = Ok adj) weighted_fns adjs ->
  Forall (fun adj => length adj = length (repeat (Fin 0) (length host_list))) adjs.
Proof.
  intros H. induction H as [|wf adj fns adjs' Hwf _ IH]; constructor; [|assumption].
  rewrite repeat_length. eapply normalize_fn_length, Hwf.
Qed.

Lemma aggregate_Ok (weighted_fns : list (num * cost_fn))
    (host_list : list (string * HostInfo)) (options : Options) (fs : list num) :
  aggregate weighted_fns host_list options = Ok fs <->
  exists adjs,
    Forall2 (fun wf adj => normalize_fn host_list options wf = Ok adj) weighted_fns adjs /\
    fs = fold_left (zip_with num_add) adjs (repeat (Fin 0) (length host_list)).
Proof.
  unfold aggregate. split.
  - intros H. apply bind_Ok in H as (adjs & Hadjs & H).
    apply adjusted_scores_Ok in Hadjs. exists adjs. split; [assumption|].
    rewrite sum_columns_fold in H by (eapply normalized_lengths, Hadjs).
    congruence.
  - intros (adjs & Hadjs & ->).
    pose proof (normalized_lengths _ _ _ _ Hadjs) as Hlen.
    apply adjusted_scores_Ok in Hadjs. rewrite Hadjs. simpl.
    apply sum_columns_fold. assumption.
Qed.

Lemma aggregate_length (weighted_fns : list (num * cost_fn))
    (host_list : list (string * HostInfo)) (options : Options) (fs : list num) :
  aggregate weighted_fns host_list options = Ok fs -> length fs = length host_list.
Proof.
  intros H. apply aggregate_Ok in H as (adjs & Hadjs & ->).
  rewrite fold_zip_length by (eapply normalized_lengths, Hadjs).
  apply repeat_length.
Qed.

Lemma aggregate_Raise (weighted_fns : list (num * cost_fn))
    (host_list : list (string * HostInfo)) (options : Options) (e : exn) :
  aggregate weighted_fns host_list options = Raise e ->
  (e = ValueError /\ host_list = [] /\ weighted_fns <> []) \/
  (e = ZeroDivisionError /\ host_list <> []).
Proof.
  unfold aggregate.
  destruct (adjusted_scores weighted_fns host_list options) as [adjs|e'] eqn:Hadjs;
    simpl.
  - apply adjusted_scores_Ok in Hadjs.
    rewrite sum_columns_fold by (eapply normalized_lengths, Hadjs). discriminate.
  - intros H. injection H as <-. eapply adjusted_scores_Raise, Hadjs.
Qed.

Lemma weighted_sum_select (weighted_fns : list (num * cost_fn))
    (host_list : list (string * HostInfo)) (options : Options) :
  weighted_sum weighted_fns host_list options =
  do fs <- aggregate weighted_fns host_list options; select (zip fs host_list).
Proof.
  unfold weighted_sum.
  destruct (aggregate weighted_fns host_list options) as [fs|e] eqn:Hagg; simpl;
    [|reflexivity].
  rewrite superimpose_zip by (eapply aggregate_length, Hagg). simpl.
  destruct (zip fs host_list) as [|x l]; [reflexivity|].
  destruct (sorted_head scored_ltb x l) as (t & ->). reflexivity.
Qed.

Lemma weighted_sum_Raise (weighted_fns : list (num * cost_fn))
    (host_list : list (string * HostInfo)) (options : Options) (e : exn) :
  weighted_sum weighted_fns host_list options = Raise e ->
  (e = ValueError /\ host_list = [] /\ weighted_fns <> []) \/
  (e = IndexError /\ host_list = [] /\ weighted_fns = []) \/
  (e = ZeroDivisionError /\ host_list <> []).
Proof.
  rewrite weighted_sum_select.
  destruct (aggregate weighted_fns host_list options) as [fs|e'] eqn:Hagg; simpl.
  - pose proof (aggregate_length _ _ _ _ Hagg) as Hlen.
    destruct fs as [|s fs], host_list as [|h hosts]; try discriminate Hlen; simpl.
    + intros H. injection H as <-. right. left.
      split; [reflexivity|]. split; [reflexivity|].
      destruct weighted_fns as [|wf fns]; [reflexivity|].
      discriminate Hagg.
    + destruct (first_min scored_ltb (s, h) (zip fs hosts)) as [w [n i]]. discriminate.
  - intros H. injection H as <-.
    destruct (aggregate_Raise _ _ _ _ Hagg) as [H|H]; [left|right; right]; assumption.
Qed.

(** ** The dict of a [WeightedHost] *)



Lemma to_dict_blob (wh : WeightedHost) :
  to_dict wh !! "blob"%string = if truthy (blob wh) then Some (blob wh) else None.
Proof.
  unfold to_dict.
  destruct (truthy (blob wh)), (truthy (host wh)), (truthy (zone wh));
    simplify_map_eq; reflexivity.
Qed.


Lemma to_dict_zone (wh : WeightedHost) :
  to_dict wh !! "zone"%string = if truthy (zone wh) then Some (zone wh) else None.
Proof.
  unfold to_dict.
  destruct (truthy (blob wh)), (truthy (host wh)), (truthy (zone wh));
    simplify_map_eq; reflexivity.
Qed.





(** ** What [weighted_sum] returns and raises *)

Lemma weighted_sum_Ok (weighted_fns : list (num * cost_fn))
    (host_list : list (string * HostInfo)) (options : Options) (wh : WeightedHost) :
  weighted_sum weighted_fns host_list options = Ok wh ->
  exists fs x l w name info,
    aggregate weighted_fns host_list options = Ok fs /\
    zip fs host_list = x :: l /\
    first_min scored_ltb x l = (w, (name, info)) /\
    wh = WeightedHost_init w name info.
Proof.
  rewrite weighted_sum_select. intros H.
  apply bind_Ok in H as (fs & Hagg & H).
  destruct (zip fs host_list) as [|x l] eqn:Hzip; [discriminate|].
  simpl in H. destruct (first_min scored_ltb x l) as [w [name info]] eqn:Hmin.
  injection H as <-. exists fs, x, l, w, name, info. auto.
Qed.

(** C9.  A [WeightedHost] that [weighted_sum] returns has no zone and no
    payload ([zone] and [blob] are [None]), so its dict has neither the
    key [zone] nor the key [blob]. *)
Theorem weighted_sum_result_has_no_zone_or_blob
    (weighted_fns : list (num * cost_fn)) (host_list : list (string * HostInfo))
    (options : Options) (wh : WeightedHost) :
  weighted_sum weighted_fns host_list options = Ok wh ->
  zone wh = PyNone /\ blob wh = PyNone /\
  to_dict wh !! "zone"%string = None /\ to_dict wh !! "blob"%string = None.
Proof.
  intros H.
  apply weighted_sum_Ok in H as (fs & x & l & w & name & info & _ & _ & _ & ->).
  rewrite to_dict_zone, to_dict_blob. simpl. auto.
Qed.

(** The run of the test module: four hosts, the functions [offset] and
    [scale]. *)
Lemma weighted_sum_result_has_no_zone_or_blob_witness :
  exists wh,
    weighted_sum [(Fin 1, offset); (Fin 1, scale)] four_hosts ∅ = Ok wh /\
    zone wh = PyNone /\ blob wh = PyNone /\
    to_dict wh !! "zone"%string = None /\ to_dict wh !! "blob"%string = None.
Proof.
  eexists. split; [vm_compute; reflexivity|].
  apply (weighted_sum_result_has_no_zone_or_blob
           [(Fin 1, offset); (Fin 1, scale)] four_hosts ∅).
  vm_compute. reflexivity.
Defined.

(** A row in which all hosts have the same finite cost makes the
    division raise, whatever the other rows are. *)
Lemma normalize_fn_tied (host_list : list (string * HostInfo)) (options : Options)
    (wf : num * cost_fn) :
  host_list <> [] ->
  Forall (fun a => is_finite a = true) (row_of (snd wf) host_list options) ->
  tied (row_of (snd wf) host_list options) ->
  normalize_fn host_list options wf = Raise ZeroDivisionError.
Proof.
  intros Hne Hfin Htied. unfold normalize_fn.
  pose proof (row_of_nonempty (snd wf) _ options Hne) as Hrow.
  destruct (py_min_spec _ Hrow Hfin) as (mn & -> & Hmn & _).
  destruct (py_max_spec _ Hrow Hfin) as (mx & -> & Hmx & _).
  simpl. apply (adjust_row_tied _ _ _ (mx - mn)); [assumption|reflexivity|].
  pose proof (Htied _ _ Hmx Hmn) as Heq. simpl in Heq. rewrite Heq. ring.
Qed.

Lemma tied_row_raises (weighted_fns : list (num * cost_fn))
    (host_list : list (string * HostInfo)) (options : Options) (wf : num * cost_fn) :
  host_list <> [] -> In wf weighted_fns ->
  Forall (fun a => is_finite a = true) (row_of (snd wf) host_list options) ->
  tied (row_of (snd wf) host_list options) ->
  weighted_sum weighted_fns host_list options = Raise ZeroDivisionError.
Proof.
  intros Hne Hin Hfin Htied.
  destruct (weighted_sum weighted_fns host_list options) as [wh|e] eqn:Hws.
  - exfalso.
    apply weighted_sum_Ok in Hws as (fs & _ & _ & _ & _ & _ & Hagg & _).
    apply aggregate_Ok in Hagg as (adjs & Hadjs & _).
    apply list_elem_of_In, list_elem_of_lookup in Hin as (i & Hi).
    destruct (Forall2_lookup_l _ _ _ _ _ Hadjs Hi) as (adj & _ & Hadj).
    rewrite normalize_fn_tied in Hadj by assumption. discriminate.
  - apply weighted_sum_Raise in Hws as [(_ & H & _)|[(_ & H & _)|(-> & _)]];
      [contradiction|contradiction|reflexivity].
Qed.

(** C1.  The function [noop_cost_fn] gives every host the cost 1: on
    the four hosts its row has equal minimum and maximum, and
    [weighted_sum] does not give the row the contribution 0 but divides
    by zero and raises [ZeroDivisionError]. *)
Theorem tied_row_divides_by_zero :
  row_of noop_cost_fn four_hosts ∅ = [Fin 1; Fin 1; Fin 1; Fin 1] /\
  weighted_sum [(Fin 1, noop_cost_fn)] four_hosts ∅ = Raise ZeroDivisionError.
Proof. split; reflexivity. Qed.

(** C5.  A host list with one host and a function list with one
    function: the only row has equal minimum and maximum, and
    [weighted_sum] returns no [WeightedHost] but raises
    [ZeroDivisionError]. *)
Theorem single_host_returns_no_host :
  weighted_sum [(Fin 1, compute_fill_first_cost_fn)]
               [("host1"%string, fake_host 1 512 1 512)] ∅
  = Raise ZeroDivisionError.
Proof. reflexivity. Qed.

(** C2, as the specification states it, fails for an empty function
    list: the four hosts are ranked by nothing, and the first of them
    is returned with weight 0. *)
Lemma invalid_input_counterexample :
  weighted_sum [] four_hosts ∅
  = Ok (WeightedHost_init (Fin 0) "host1" (fake_host 1 512 1 512)) /\
  ~ (weighted_sum [] four_hosts ∅ = Raise InvalidInput <->
     (four_hosts = [] \/ @nil (num * cost_fn) = [])).
Proof.
  split; [reflexivity|].
  intros [_ H]. specialize (H (or_intror eq_refl)). discriminate H.
Qed.

Lemma weighted_sum_no_functions (h : string * HostInfo)
    (host_list : list (string * HostInfo)) (options : Options) :
  exists wh, weighted_sum [] (h :: host_list) options = Ok wh /\ weight wh = Fin 0.
Proof.
  rewrite weighted_sum_select.
  assert (Hagg : aggregate [] (h :: host_list) options
                 = Ok (repeat (Fin 0) (length (h :: host_list)))) by reflexivity.
  rewrite Hagg. simpl.
  pose proof (first_min_In scored_ltb
                (zip (repeat (Fin 0) (length host_list)) host_list) (Fin 0, h)) as Hin.
  destruct (first_min scored_ltb (Fin 0, h)
              (zip (repeat (Fin 0) (length host_list)) host_list)) as [w [name info]].
  eexists. split; [reflexivity|]. simpl.
  destruct Hin as [Hin|Hin]; [congruence|].
  apply list_elem_of_In, list_elem_of_lookup in Hin as (i & Hi).
  apply lookup_zip_with_Some in Hi as (a & b & Hab & Ha & _).
  injection Hab as -> _.
  apply list_elem_of_lookup_2, list_elem_of_In, repeat_spec in Ha. assumption.
Qed.

(** C2, amended.  [weighted_sum] never fails with [InvalidInput].  For
    an empty host list it fails with [ValueError] when there is a
    function and with [IndexError] when there is none.  For an empty
    function list and a host list that is not empty it does not fail:
    it returns a [WeightedHost] of weight 0. *)
Theorem weighted_sum_input_errors :
  (forall wf fns options, weighted_sum (wf :: fns) [] options = Raise ValueError) /\
  (forall options, weighted_sum [] [] options = Raise IndexError) /\
  (forall h hosts options,
      exists wh, weighted_sum [] (h :: hosts) options = Ok wh /\ weight wh = Fin 0) /\
  (forall fns hosts options, weighted_sum fns hosts options <> Raise InvalidInput).
Proof.
  split; [reflexivity|]. split; [reflexivity|].
  split; [apply weighted_sum_no_functions|].
  intros fns hosts options H.
  apply weighted_sum_Raise in H as [(H & _)|[(H & _)|(H & _)]]; discriminate H.
Qed.

(** C4, as the specification states it, fails for a cost function that
    returns infinity: its value on the host is not finite, and
    [weighted_sum] raises nothing and selects the host, with the weight
    NaN. *)
Lemma non_finite_cost_counterexample :
  let h := fake_host 1 512 1 512 in
  is_finite (infinite_cost_fn h ∅) = false /\
  weighted_sum [(Fin 1, infinite_cost_fn)] [("host1"%string, h)] ∅
  = Ok (WeightedHost_init NaN "host1" h) /\
  weighted_sum [(Fin 1, infinite_cost_fn)] [("host1"%string, h)] ∅
  <> Raise ComputationError.
Proof. split; [reflexivity|]. split; [reflexivity|discriminate]. Qed.

Lemma non_finite_sub_self (s : num) : is_finite s = false -> num_sub s s = NaN.
Proof. destruct s; simpl; [discriminate| | |]; reflexivity. Qed.

Lemma num_mul_NaN (w : num) : num_mul w NaN = NaN.
Proof. destruct w; reflexivity. Qed.

(** C4, amended.  [weighted_sum] never fails with [ComputationError]:
    a cost that is not finite is not looked for and goes through the
    arithmetic.  For one host and one function whose cost on it is not
    finite, the host is selected with the weight NaN. *)
Theorem weighted_sum_no_computation_error :
  (forall fns hosts options, weighted_sum fns hosts options <> Raise ComputationError) /\
  (forall (w : num) (fn : cost_fn) (name : string) (info : HostInfo) (options : Options),
      is_finite (fn info options) = false ->
      weighted_sum [(w, fn)] [(name, info)] options
      = Ok (WeightedHost_init NaN name info)).
Proof.
  split.
  - intros fns hosts options H.
    apply weighted_sum_Raise in H as [(H & _)|[(H & _)|(H & _)]]; discriminate H.
  - intros w fn name info options Hs.
    unfold weighted_sum, aggregate, adjusted_scores. simpl.
    unfold adjust_row, adjust, float. simpl.
    rewrite (non_finite_sub_self _ Hs), num_mul_NaN. reflexivity.
Qed.

(** One host and a cost function that returns NaN. *)
Lemma weighted_sum_no_computation_error_witness :
  let h := fake_host 7 2048 2 40 in
  weighted_sum [(Fin (1 # 2), nan_cost_fn)] [("host7"%string, h)] ∅
  = Ok (WeightedHost_init NaN "host7" h).
Proof.
  intros h.
  apply (proj2 weighted_sum_no_computation_error
           (Fin (1 # 2)) nan_cost_fn "host7"%string h ∅).
  reflexivity.
Defined.

(** ** Normalization of one row *)




(** ** Bounds of the aggregate scores *)











(** ** The order of host names *)






(** ** The winner is the least pair (score, host name) *)






(** ** Finite inputs give finite scores *)






(** ** Ties between hosts *)





(** ** Multiplying the weights by a positive constant *)


Section Scaling.
Variable c : Q.
Hypothesis c_pos : 0 < c.














End Scaling.



Section ScalingLists.
Variable c : Q.
Hypothesis c_pos : 0 < c.











End ScalingLists.




(** ** Without a tied row *)



(** ** The runs of the test module *)

(** [test_weighted_sum_happy_day]: the functions [offset] and [scale],
    both with weight 1; [host1] wins with weight 0. *)
Example weighted_sum_happy_day :
  exists wh,
    weighted_sum [(Fin 1, offset); (Fin 1, scale)] four_hosts ∅ = Ok wh /\
    host wh = PyStr "host1" /\ num_eq (weight wh) (Fin 0).
Proof.
  eexists. split; [vm_compute; reflexivity|]. split; reflexivity.
Qed.

(** [test_weighted_sum_single_function]. *)
Example weighted_sum_single_function :
  exists wh,
    weighted_sum [(Fin 1, offset)] four_hosts ∅ = Ok wh /\
    host wh = PyStr "host1" /\ num_eq (weight wh) (Fin 0).
Proof.
  eexists. split; [vm_compute; reflexivity|]. split; reflexivity.
Qed.

(** [test_weighted_sum_even_distribution_functions]: [host4] has the
    most of every resource and wins with weight 0. *)
Example weighted_sum_even_distribution_functions :
  exists wh,
    weighted_sum [(Fin 1, compute_even_fill_vcpus_cost_fn);
                  (Fin 1, compute_even_fill_ram_cost_fn);
                  (Fin 1, compute_even_fill_disk_cost_fn)] four_hosts ∅ = Ok wh /\
    host wh = PyStr "host4" /\ num_eq (weight wh) (Fin 0).
Proof.
  eexists. split; [vm_compute; reflexivity|]. split; reflexivity.
Qed.

(** * More of the module *)

(** ** When [weighted_sum] divides by zero *)







(** X3.  With one candidate host [weighted_sum] selects nothing: as
    soon as one function has a finite cost for the host, its row is
    tied and the call raises [ZeroDivisionError]. *)
Theorem single_host_raises (weighted_fns : list (num * cost_fn))
    (wf : num * cost_fn) (name : string) (info : HostInfo) (options : Options) :
  In wf weighted_fns -> is_finite (snd wf info options) = true ->
  weighted_sum weighted_fns [(name, info)] options = Raise ZeroDivisionError.
Proof.
  intros Hin Hfin.
  apply (tied_row_raises _ _ _ wf); try assumption.
  - discriminate.
  - constructor; [assumption|constructor].
  - intros x y [<-|[]] [<-|[]]. apply num_eq_refl.
Qed.

(** One host and the three even-fill functions. *)
Lemma single_host_raises_witness :
  weighted_sum [(Fin 1, compute_even_fill_vcpus_cost_fn);
                (Fin 1, compute_even_fill_ram_cost_fn);
                (Fin 1, compute_even_fill_disk_cost_fn)]
               [("host3"%string, fake_host 3 3072 4 3072)] ∅
  = Raise ZeroDivisionError.
Proof.
  apply (single_host_raises _ (Fin 1, compute_even_fill_ram_cost_fn)).
  - simpl. auto.
  - reflexivity.
Defined.

(** ** One cost function *)








(** ** Cost functions on another scale *)












(** ** The order of the host list *)















(** ** The order of the function list *)













(** ** A host that is the cheapest for every function *)






(** ** A function of weight 0 *)






(** ** The dict of a result *)

(** X12.  The dict of a [WeightedHost] that [weighted_sum] returns has
    the two keys [weight] and [host] and no other; for a host whose
    name is the empty string it has the key [weight] alone. *)
Theorem to_dict_of_result (weighted_fns : list (num * cost_fn))
    (host_list : list (string * HostInfo)) (options : Options) (wh : WeightedHost) :
  weighted_sum weighted_fns host_list options = Ok wh ->
  exists name info,
    In (name, info) host_list /\
    to_dict wh =
      if String.eqb name EmptyString
      then {[ "weight"%string := PyNum (weight wh) ]}
      else <[ "host"%string := PyStr name ]> {[ "weight"%string := PyNum (weight wh) ]}.
Proof.
  intros H.
  apply weighted_sum_Ok in H as (fs & x & l & w & name & info & _ & Hzip & Hmin & ->).
  exists name, info. split.
  - pose proof (first_min_In scored_ltb l x) as Hin.
    rewrite Hmin, <- Hzip in Hin.
    apply list_elem_of_In, list_elem_of_lookup in Hin as (i & Hi).
    apply lookup_zip_with_Some in Hi as (s & h & E & _ & Hh).
    injection E as _ <-.
    apply list_elem_of_In, list_elem_of_lookup. eauto.
  - unfold to_dict. simpl. destruct (String.eqb name EmptyString); reflexivity.
Qed.

(** A host without a name beside another: the host without a name has
    the least free memory and is returned. *)
Lemma to_dict_of_result_witness :
  let hosts := [(EmptyString, fake_host 1 512 1 512);
                ("host2"%string, fake_host 2 1024 2 1024)] in
  exists wh name info,
    weighted_sum [(Fin 1, compute_fill_first_cost_fn)] hosts ∅ = Ok wh /\
    In (name, info) hosts /\
    to_dict wh =
      if String.eqb name EmptyString
      then {[ "weight"%string := PyNum (weight wh) ]}
      else <[ "host"%string := PyStr name ]> {[ "weight"%string := PyNum (weight wh) ]}.
Proof.
  intros hosts.
  destruct (weighted_sum [(Fin 1, compute_fill_first_cost_fn)] hosts ∅)
    as [wh|e] eqn:Hws; [|vm_compute in Hws; discriminate Hws].
  destruct (to_dict_of_result _ _ _ _ Hws) as (name & info & H).
  exists wh, name, info. split; [reflexivity|exact H].
Defined.
